(** * Brick breaker: the direction state machine and the game-state interface

    A shallow embedding of [src/constants.py], [src/game.py] and the frame
    loop of [src/main.py].  Python integers are unbounded, so they are [Z];
    the [Matrix] dictionary is a [gmap] keyed by coordinates; functions that
    can raise return a [result]. *)

From Stdlib Require Import ZArith Bool List Lia.
From stdpp Require Import gmap.
Import ListNotations.

Local Open Scope Z_scope.

(** ** constants.py *)

Module Constants.

Definition padding : Z := 20.
Definition rows : Z := 50.
Definition columns : Z := 40.
Definition cell_size : Z := 10.

Definition ball_slowness : Z := 5.

Definition width : Z := 2 * padding + cell_size * columns.
Definition height : Z := 2 * padding + cell_size * rows.

Definition paddle_width : Z := 9.
Definition paddle_height : Z := 1.
Definition paddle_split : Z := 3.

Definition frame_rate : Z := 60.

End Constants.

Import Constants.

(** ** game.py: coordinates and the [Direction] enum *)

Definition Coord : Type := Z * Z.

Inductive Direction : Type :=
  | UP
  | UP_RIGHT
  | DOWN_RIGHT
  | DOWN
  | DOWN_LEFT
  | UP_LEFT.

#[global] Instance Direction_eq_dec : EqDecision Direction.
Proof. solve_decision. Defined.

(** All members of the enum, in declaration order. *)
Definition all_directions : list Direction :=
  [UP; UP_RIGHT; DOWN_RIGHT; DOWN; DOWN_LEFT; UP_LEFT].

(** [Direction.is_down]: a disjunction of three enum comparisons. *)
Definition is_down (self : Direction) : bool :=
  bool_decide (self = DOWN_LEFT)
  || bool_decide (self = DOWN)
  || bool_decide (self = DOWN_RIGHT).

(** [Direction.delta]: a [match] statement with one case per member. *)
Definition delta (self : Direction) : Z * Z :=
  match self with
  | UP => (0, -1)
  | UP_RIGHT => (1, -1)
  | DOWN_RIGHT => (1, 1)
  | DOWN => (0, 1)
  | DOWN_LEFT => (-1, 1)
  | UP_LEFT => (-1, -1)
  end.

(** [Direction.get_adjacent_coords]: an if/elif chain on [self]; the last
    branch is the bare [else]. The triple is (left, front, right). *)
Definition get_adjacent_coords (self : Direction) (x y : Z)
  : Coord * Coord * Coord :=
  if bool_decide (self = UP) then
    ((x - 1, y - 1), (x, y - 1), (x + 1, y - 1))
  else if bool_decide (self = UP_RIGHT) then
    ((x, y - 1), (x + 1, y - 1), (x + 1, y))
  else if bool_decide (self = DOWN_RIGHT) then
    ((x + 1, y), (x + 1, y + 1), (x, y + 1))
  else if bool_decide (self = DOWN) then
    ((x - 1, y + 1), (x, y + 1), (x + 1, y + 1))
  else if bool_decide (self = DOWN_LEFT) then
    ((x, y + 1), (x - 1, y + 1), (x - 1, y))
  else
    ((x - 1, y), (x - 1, y - 1), (x, y - 1)).

(** [Direction.new_direction]: the outer if/elif chain on [self], and for
    each diagonal heading the eight-way inner chain, kept in source order. *)
Definition new_direction (self : Direction)
  (on_left in_front on_right : bool) : Direction :=
  if bool_decide (self = UP) then
    if in_front then DOWN else UP
  else if bool_decide (self = UP_RIGHT) then
    if on_left && in_front && on_right then DOWN_LEFT
    else if on_left && in_front && negb on_right then DOWN_RIGHT
    else if on_left && negb in_front && on_right then DOWN_LEFT
    else if on_left && negb in_front && negb on_right then DOWN_RIGHT
    else if negb on_left && in_front && on_right then UP_LEFT
    else if negb on_left && in_front && negb on_right then DOWN_LEFT
    else if negb on_left && negb in_front && on_right then UP_LEFT
    else UP_RIGHT
  else if bool_decide (self = DOWN_RIGHT) then
    if on_left && in_front && on_right then UP_LEFT
    else if on_left && in_front && negb on_right then DOWN_LEFT
    else if on_left && negb in_front && on_right then UP_LEFT
    else if on_left && negb in_front && negb on_right then DOWN_LEFT
    else if negb on_left && in_front && on_right then UP_RIGHT
    else if negb on_left && in_front && negb on_right then UP_LEFT
    else if negb on_left && negb in_front && on_right then UP_RIGHT
    else DOWN_RIGHT
  else if bool_decide (self = DOWN) then
    if in_front then UP else DOWN
  else if bool_decide (self = DOWN_LEFT) then
    if on_left && in_front && on_right then UP_RIGHT
    else if on_left && in_front && negb on_right then UP_LEFT
    else if on_left && negb in_front && on_right then UP_RIGHT
    else if on_left && negb in_front && negb on_right then UP_LEFT
    else if negb on_left && in_front && on_right then DOWN_RIGHT
    else if negb on_left && in_front && negb on_right then UP_RIGHT
    else if negb on_left && negb in_front && on_right then DOWN_RIGHT
    else DOWN_LEFT
  else
    if on_left && in_front && on_right then DOWN_RIGHT
    else if on_left && in_front && negb on_right then UP_RIGHT
    else if on_left && negb in_front && on_right then DOWN_RIGHT
    else if on_left && negb in_front && negb on_right then UP_RIGHT
    else if negb on_left && in_front && on_right then DOWN_LEFT
    else if negb on_left && in_front && negb on_right then DOWN_RIGHT
    else if negb on_left && negb in_front && on_right then DOWN_LEFT
    else UP_LEFT.

(** ** game.py: blocks, the matrix and the game state *)

Record Block : Type := mkBlock {
  color : Z * Z * Z;
  coords : list Coord
}.

(** [Matrix = dict[tuple[int, int], Block | None]]: a key can be absent,
    present with [None] (the borders, as [draw_to] notes) or present with a
    [Block]. *)
Abbreviation Matrix := (gmap Coord (option Block)).

Record GameState : Type := mkGameState {
  matrix : Matrix;
  frame_count : Z;
  paddle_pos : Z;
  ball_x : Z;
  ball_y : Z;
  ball_direction : Direction
}.

(** The dataclass constructor [GameState(matrix)] with its field defaults. *)
Definition new_GameState (m : Matrix) : GameState :=
  {| matrix := m;
     frame_count := 0;
     paddle_pos := (columns - paddle_width) `div` 2;
     ball_x := columns `div` 2;
     ball_y := rows - 2;
     ball_direction := UP_RIGHT |}.

(** *** Exceptions *)

Inductive exn : Type :=
  | NotImplementedError.

Inductive result (A : Type) : Type :=
  | Returns (a : A)
  | Raises (e : exn).

Arguments Returns {A} a.
Arguments Raises {A} e.

Definition bind {A B : Type} (m : result A) (k : A -> result B) : result B :=
  match m with
  | Returns a => k a
  | Raises e => Raises e
  end.

Definition returns {A : Type} (m : result A) : bool :=
  match m with
  | Returns _ => true
  | Raises _ => false
  end.

(** The generator behind [random()] and [choice] is hidden global state;
    here it is the tape of raw draws still to be consumed. *)
Definition RandomTape : Type := list Z.

(** [make_matrix]: the body under the docstring is the single statement
    [raise NotImplementedError]; no draw is consumed. *)
Definition make_matrix (tape : RandomTape) : result (Matrix * RandomTape) :=
  Raises NotImplementedError.

(** [GameState.update] mutates [self] and returns the exit flag, so it maps
    a state to the flag and the next state. Its body is the single statement
    [raise NotImplementedError]. *)
Definition update (self : GameState) : result (bool * GameState) :=
  Raises NotImplementedError.

(** [GameState.move_ball], [GameState.handle_events] and [GameState.reset]
    have the same one-statement body. *)
Definition move_ball (self : GameState) : result GameState :=
  Raises NotImplementedError.

Definition handle_events (self : GameState) : result (bool * GameState) :=
  Raises NotImplementedError.

Definition reset (self : GameState) : result GameState :=
  Raises NotImplementedError.

(** ** main.py: the frame loop

    [while True: if state.update(): break; draw; tick]. Drawing and the
    clock do not touch the state. The loop has no bound of its own, so the
    model counts frames: [None] means the frames ran out before [update]
    asked to stop, [Some s] is the state at the [break]. *)
Fixpoint frame_loop (frames : nat) (state : GameState)
  : result (option GameState) :=
  match frames with
  | O => Returns None
  | S frames' =>
      bind (update state) (fun '(quit, state') =>
        if quit then Returns (Some state') else frame_loop frames' state')
  end.

Definition main (tape : RandomTape) (frames : nat)
  : result (option GameState) :=
  bind (make_matrix tape) (fun '(m, _) => frame_loop frames (new_GameState m)).

(** ** Vocabulary of the properties *)

(** The triple of [get_adjacent_coords] as a list, in the order returned. *)
Definition adjacent_list (d : Direction) (x y : Z) : list Coord :=
  let '(l, f, r) := get_adjacent_coords d x y in [l; f; r].

(** The four headings that move on both axes, and the two that do not. *)
Definition is_diagonal (d : Direction) : bool :=
  match d with
  | UP_RIGHT | DOWN_RIGHT | DOWN_LEFT | UP_LEFT => true
  | UP | DOWN => false
  end.

Definition is_vertical (d : Direction) : bool :=
  match d with
  | UP | DOWN => true
  | _ => false
  end.

(** A quarter turn clockwise of a diagonal heading (screen coordinates:
    [y] grows downwards). The vertical headings are left alone. *)
Definition quarter_turn (d : Direction) : Direction :=
  match d with
  | UP_RIGHT => DOWN_RIGHT
  | DOWN_RIGHT => DOWN_LEFT
  | DOWN_LEFT => UP_LEFT
  | UP_LEFT => UP_RIGHT
  | UP => UP
  | DOWN => DOWN
  end.

(** Chebyshev distance between two cells. *)
Definition chebyshev (a b : Coord) : Z :=
  Z.max (Z.abs (a.1 - b.1)) (Z.abs (a.2 - b.2)).

(** [c] is at most one column and at most one row away from [p]. *)
Definition within_one (p c : Coord) : Prop :=
  Z.abs (c.1 - p.1) <= 1 /\ Z.abs (c.2 - p.2) <= 1.

#[global] Instance within_one_dec p c : Decision (within_one p c).
Proof. unfold within_one. apply _. Defined.

(** Modelled from the spec: the coordinate ranges of the grid. The keys of
    the matrix would be fixed by the body of [make_matrix], which is missing
    under src/. The playable interior is the [columns] by [rows] rectangle
    that [draw_to] paints; the bordered range adds one ring around it. *)
Definition in_interior (c : Coord) : Prop :=
  (0 <= c.1 < columns) /\ (0 <= c.2 < rows).

Definition in_bordered_range (c : Coord) : Prop :=
  (-1 <= c.1 <= columns) /\ (-1 <= c.2 <= rows).

(** Modelled from the spec: the outer ring of the bordered range. *)
Definition on_border_ring (c : Coord) : Prop :=
  in_bordered_range c /\ ~ in_interior c.

#[global] Instance in_interior_dec c : Decision (in_interior c).
Proof. unfold in_interior. apply _. Defined.

#[global] Instance in_bordered_range_dec c : Decision (in_bordered_range c).
Proof. unfold in_bordered_range. apply _. Defined.

#[global] Instance on_border_ring_dec c : Decision (on_border_ring c).
Proof. unfold on_border_ring. apply _. Defined.

(** The border as the docstring of [make_matrix] and the comment in
    [draw_to] have it: every ring coordinate is a key of the matrix, and its
    value is [None] rather than a [Block]. *)
Definition border_invariant (m : Matrix) : Prop :=
  forall c : Coord, on_border_ring c -> m !! c = Some None.

(** ** constants.py: colors *)

Definition Color : Type := Z * Z * Z.

Module Colors.

Definition background_color : Color := (15, 23, 42).
Definition border_color : Color := (0, 0, 0).
Definition paddle_color : Color := (255, 255, 255).
Definition ball_color : Color := (255, 0, 0).
Definition brick_colors : list Color :=
  [ (158, 227, 98); (0, 192, 208); (255, 212, 3);
    (255, 147, 86); (126, 116, 212); (254, 130, 170) ].

End Colors.

Import Colors.

(** ** game.py: [GameState.draw_to]

    The screen is written to, never read, so a call is modelled by the list
    of drawing commands it issues, in order. *)

(** A rectangle as pygame keeps it: four C ints. *)
Record Rect : Type := mkRect {
  rect_left : Z;
  rect_top : Z;
  rect_width : Z;
  rect_height : Z
}.

(** A Python integer stored in a C int: outside the signed 32-bit range it
    is reduced modulo 2^32 into it, without an error. *)
Definition c_int (z : Z) : Z :=
  (z + 2147483648) `mod` 4294967296 - 2147483648.

(** The constructor [pygame.Rect(left, top, width, height)] on integers. *)
Definition pygame_Rect (left top w h : Z) : Rect :=
  mkRect (c_int left) (c_int top) (c_int w) (c_int h).

(** The pixels a filled rectangle paints: the half-open box of pygame. *)
Definition covers (r : Rect) (px py : Z) : Prop :=
  (rect_left r <= px < rect_left r + rect_width r)
  /\ (rect_top r <= py < rect_top r + rect_height r).

#[global] Instance covers_dec r px py : Decision (covers r px py).
Proof. unfold covers. apply _. Defined.

(** [a] lies inside [b]. *)
Definition rect_within (a b : Rect) : Prop :=
  rect_left b <= rect_left a
  /\ rect_left a + rect_width a <= rect_left b + rect_width b
  /\ rect_top b <= rect_top a
  /\ rect_top a + rect_height a <= rect_top b + rect_height b.

#[global] Instance rect_within_dec a b : Decision (rect_within a b).
Proof. unfold rect_within. apply _. Defined.

(** The ball is drawn at [ball_x - dx * t], [ball_y - dy * t] cells, where
    [t] is a float: the quotient of an integer numerator by [ball_slowness].
    The integers that enter that float expression are kept; the float
    arithmetic itself is not evaluated. *)
Record BallSprite : Type := mkBallSprite {
  sprite_x : Z;
  sprite_y : Z;
  sprite_dx : Z;
  sprite_dy : Z;
  sprite_t_numerator : Z;
  sprite_t_denominator : Z
}.

Inductive DrawCmd : Type :=
  | Fill (c : Color)
  | FillRect (c : Color) (r : Rect)
  | FillBall (c : Color) (b : BallSprite)
  | DisplayFlip.

(** The square of one cell, as in the loop over [self.matrix.items()]. *)
Definition cell_rect (x y : Z) : Rect :=
  pygame_Rect (padding + x * cell_size) (padding + y * cell_size)
              cell_size cell_size.

(** The rectangle filled with [background_color]. *)
Definition game_area_rect : Rect :=
  pygame_Rect padding padding (columns * cell_size) (rows * cell_size).

(** The whole surface, [width] by [height] pixels ([main.py]). *)
Definition screen_rect : Rect := mkRect 0 0 width height.

(** The rectangle of the paddle. *)
Definition paddle_rect (pos : Z) : Rect :=
  pygame_Rect (padding + pos * cell_size)
              (padding + (rows - paddle_height) * cell_size)
              (paddle_width * cell_size)
              (paddle_height * cell_size).

(** The numerator of [t]:
    [ball_slowness - self.frame_count % ball_slowness - 1]. Python's [%]
    with a positive right operand is the floor remainder, as [Z.modulo]. *)
Definition draw_t_numerator (fc : Z) : Z :=
  ball_slowness - fc `mod` ball_slowness - 1.

(** A Python dictionary is walked in the order its keys were inserted. A
    [gmap] does not record that order, so the dictionary is the map together
    with the list of its keys in insertion order. *)
Definition insertion_order (keys : list Coord) (m : Matrix) : Prop :=
  NoDup keys /\ dom m = list_to_set keys.

#[global] Instance insertion_order_dec keys m :
  Decision (insertion_order keys m).
Proof. unfold insertion_order. apply _. Defined.

(** The loop [for (x, y), block in self.matrix.items()]: the keys in
    insertion order, each with its value; one [FillRect] when the value is a
    [Block], nothing when it is [None]. *)
Definition draw_blocks (keys : list Coord) (m : Matrix) : list DrawCmd :=
  omap (fun '(x, y) =>
          match m !! (x, y) with
          | Some (Some b) => Some (FillRect (color b) (cell_rect x y))
          | _ => None
          end)
       keys.

Definition draw_ball (self : GameState) : DrawCmd :=
  let '(dx, dy) := delta (ball_direction self) in
  FillBall ball_color
    {| sprite_x := ball_x self;
       sprite_y := ball_y self;
       sprite_dx := dx;
       sprite_dy := dy;
       sprite_t_numerator := draw_t_numerator (frame_count self);
       sprite_t_denominator := ball_slowness |}.

Definition draw_to (keys : list Coord) (self : GameState) : list DrawCmd :=
  [Fill border_color; FillRect background_color game_area_rect]
  ++ draw_blocks keys (matrix self)
  ++ [FillRect paddle_color (paddle_rect (paddle_pos self));
      draw_ball self;
      DisplayFlip].

(** ** main.py: the frame loop over any [update]

    The loop of [main] only uses the flag [update] returns, so it is
    modelled over an arbitrary step function as well: the states handed to
    [draw_to], in order, and how the loop ended. *)
Inductive LoopEnd : Type :=
  | Quit (s : GameState)
  | Raised (e : exn)
  | StillRunning (s : GameState).

Fixpoint run_frames (upd : GameState -> result (bool * GameState))
  (frames : nat) (state : GameState) : list GameState * LoopEnd :=
  match frames with
  | O => ([], StillRunning state)
  | S frames' =>
      match upd state with
      | Raises e => ([], Raised e)
      | Returns (quit, state') =>
          if (quit : bool) then ([], Quit state')
          else
            let '(drawn, fin) := run_frames upd frames' state' in
            (state' :: drawn, fin)
      end
  end.

(** ** More vocabulary of the properties *)

(** The heading mirrored left to right. *)
Definition mirror (d : Direction) : Direction :=
  match d with
  | UP => UP
  | UP_RIGHT => UP_LEFT
  | DOWN_RIGHT => DOWN_LEFT
  | DOWN => DOWN
  | DOWN_LEFT => DOWN_RIGHT
  | UP_LEFT => UP_RIGHT
  end.

(** A cell mirrored in the column [x]. *)
Definition mirror_cell (x : Z) (c : Coord) : Coord := (2 * x - c.1, c.2).

(** A cell turned a quarter turn clockwise around the cell [(x, y)]
    (clockwise on the screen, where [y] grows downwards). *)
Definition turn_cell (x y : Z) (c : Coord) : Coord :=
  (x - (c.2 - y), y + (c.1 - x)).

(** The step from [p] to [c], and the cross product of two steps: positive
    when the second is clockwise of the first on the screen. *)
Definition offset (p c : Coord) : Z * Z := (c.1 - p.1, c.2 - p.2).

Definition cross (a b : Z * Z) : Z := a.1 * b.2 - a.2 * b.1.

(** The heading after looking up the three adjacent cells of [(x, y)] in an
    occupancy map, and the cell one step along a heading. *)
Definition reflect_at (occ : Coord -> bool) (d : Direction) (x y : Z)
  : Direction :=
  let '(l, f, r) := get_adjacent_coords d x y in
  new_direction d (occ l) (occ f) (occ r).

Definition step_cell (d : Direction) (x y : Z) : Coord :=
  let '(dx, dy) := delta d in (x + dx, y + dy).

(** The integer is stored in a C int as it is. *)
Definition fits_c_int (z : Z) : Prop := -2147483648 <= z < 2147483648.

#[global] Instance fits_c_int_dec z : Decision (fits_c_int z).
Proof. unfold fits_c_int. apply _. Defined.

(** The [n] cells that start at column (or row) index [i] have both pixel
    edges within the range of a C int: no rectangle over them is reduced. *)
Definition cells_fit (i n : Z) : Prop :=
  fits_c_int (padding + i * cell_size)
  /\ fits_c_int (padding + (i + n) * cell_size).

#[global] Instance cells_fit_dec i n : Decision (cells_fit i n).
Proof. unfold cells_fit. apply _. Defined.

(** The square painted for one entry that holds a block. *)
Definition block_square (entry : Coord * Block) : DrawCmd :=
  let '((x, y), b) := entry in FillRect (color b) (cell_rect x y).

(** A run of reflections, one occupancy triple after the other. *)
Definition reflect_all (d : Direction) (hits : list (bool * bool * bool))
  : Direction :=
  fold_left (fun d '(l, f, r) => new_direction d l f r) hits d.

(** ** Properties of [Direction] *)

Section DirectionFacts.

Implicit Types (d : Direction) (x y : Z) (on_left in_front on_right : bool).

(** Case analysis on a heading, then evaluation of the if/elif chains. *)
Local Ltac by_heading d := destruct d; cbn; try reflexivity.

Lemma all_directions_complete d : d ∈ all_directions.
Proof. unfold all_directions. destruct d; set_solver. Qed.

Lemma diagonal_or_vertical d : is_diagonal d = negb (is_vertical d).
Proof. by_heading d. Qed.

(** The eight-row tables of the four diagonal headings are one table up to
    a quarter turn: turning the heading turns the answer. *)
Lemma new_direction_quarter_turn d on_left in_front on_right :
  is_diagonal d = true ->
  new_direction (quarter_turn d) on_left in_front on_right
  = quarter_turn (new_direction d on_left in_front on_right).
Proof.
  intros Hd. destruct d; try discriminate Hd;
    destruct on_left, in_front, on_right; reflexivity.
Qed.

(** The row the comment above [new_direction] walks through (marked HERE
    in the source): heading up and right, blocks in front and on the
    right. *)
Lemma new_direction_documented_row :
  new_direction UP_RIGHT false true true = UP_LEFT.
Proof. reflexivity. Qed.

(** C1, as amended: heading DOWN_RIGHT with on_left=False, in_front=True,
    on_right=True is reflected to UP_RIGHT (the cells in front and below
    are filled, so only the vertical component flips). *)
Theorem new_direction_down_right_floor :
  new_direction DOWN_RIGHT false true true = UP_RIGHT.
Proof. reflexivity. Qed.

(** C1, as stated (the result would be UP_LEFT), fails. *)
Lemma new_direction_down_right_not_up_left :
  new_direction DOWN_RIGHT false true true <> UP_LEFT.
Proof. cbn. discriminate. Qed.

(** C2: the middle coordinate of [get_adjacent_coords] is the ball's cell
    moved by [delta], for every heading and every cell. *)
Theorem front_coord_is_delta_step d x y :
  let '(_, front, _) := get_adjacent_coords d x y in
  let '(dx, dy) := delta d in
  front = (x + dx, y + dy).
Proof. destruct d; cbn; f_equal; lia. Qed.

(** C3: for UP and DOWN the result of [new_direction] is decided by
    [in_front] alone, whatever [on_left] and [on_right] are. *)
Theorem new_direction_vertical_only_in_front on_left on_right :
  new_direction UP on_left true on_right = DOWN
  /\ new_direction UP on_left false on_right = UP
  /\ new_direction DOWN on_left true on_right = UP
  /\ new_direction DOWN on_left false on_right = DOWN.
Proof. repeat split. Qed.

(** C4: with nothing hit, [new_direction] returns the heading unchanged. *)
Theorem new_direction_nothing_hit d :
  new_direction d false false false = d.
Proof. by_heading d. Qed.

(** C5: [delta] returns the six unit steps of the table, and its vertical
    component is never 0. *)
Theorem delta_unit_steps :
  (delta UP = (0, -1)
   /\ delta UP_RIGHT = (1, -1)
   /\ delta DOWN_RIGHT = (1, 1)
   /\ delta DOWN = (0, 1)
   /\ delta DOWN_LEFT = (-1, 1)
   /\ delta UP_LEFT = (-1, -1))
  /\ forall d, (delta d).2 <> 0.
Proof.
  split; [repeat split |].
  intros d; destruct d; cbn; lia.
Qed.

(** C8: [is_down] is True exactly for DOWN_LEFT, DOWN and DOWN_RIGHT and
    False for UP, UP_RIGHT and UP_LEFT. *)
Theorem is_down_spec :
  (is_down DOWN_LEFT = true /\ is_down DOWN = true
   /\ is_down DOWN_RIGHT = true)
  /\ (is_down UP = false /\ is_down UP_RIGHT = false
      /\ is_down UP_LEFT = false)
  /\ forall d, is_down d = true <-> d = DOWN_LEFT \/ d = DOWN \/ d = DOWN_RIGHT.
Proof.
  split; [repeat split |]. split; [repeat split |].
  intros d; split.
  - destruct d; cbn; intros H; try discriminate H; auto.
  - intros [-> | [-> | ->]]; reflexivity.
Qed.

(** [is_down] agrees with the sign of the vertical step. *)
Lemma is_down_delta d : is_down d = bool_decide (0 < (delta d).2).
Proof. by_heading d. Qed.

Lemma adjacent_list_within_one d x y :
  Forall (within_one (x, y)) (adjacent_list d x y).
Proof.
  destruct d; cbn; repeat constructor; cbn; lia.
Qed.

Lemma adjacent_list_chebyshev d x y :
  Forall (fun c => chebyshev c (x, y) = 1) (adjacent_list d x y).
Proof.
  destruct d; cbn; repeat constructor; unfold chebyshev; cbn; lia.
Qed.

(** One step from the interior stays inside the ring around it. *)
Lemma within_one_interior_bordered (p c : Coord) :
  in_interior p -> within_one p c -> in_bordered_range c.
Proof.
  unfold in_interior, within_one, in_bordered_range, columns, rows.
  destruct p as [px py], c as [cx cy]; cbn. lia.
Qed.

(** C9, as amended: the three cells of [get_adjacent_coords] are each at
    most 1 away from (x, y) on each axis, at Chebyshev distance 1; hence
    from a ball position in the playable interior all three lie in the
    bordered range. *)
Theorem adjacent_coords_within_one d x y :
  Forall (fun c => within_one (x, y) c /\ chebyshev c (x, y) = 1)
         (adjacent_list d x y)
  /\ (in_interior (x, y) -> Forall in_bordered_range (adjacent_list d x y)).
Proof.
  split.
  - apply Forall_and; split;
      [apply adjacent_list_within_one | apply adjacent_list_chebyshev].
  - intros Hin. eapply Forall_impl; [apply adjacent_list_within_one |].
    intros c Hc. exact (within_one_interior_bordered _ _ Hin Hc).
Qed.

Lemma adjacent_coords_within_one_witness :
  in_interior (39, 49)
  /\ Forall in_bordered_range (adjacent_list DOWN_RIGHT 39 49).
Proof.
  split.
  - unfold in_interior, columns, rows; cbn; lia.
  - apply (proj2 (adjacent_coords_within_one DOWN_RIGHT 39 49)).
    unfold in_interior, columns, rows; cbn; lia.
Defined.

(** C9, as stated, fails: (-1, 5) is a position of the bordered range, and
    the lookahead of DOWN_LEFT from it holds (-2, 6), outside that range. *)
Lemma adjacent_coords_in_range_escape :
  in_bordered_range (-1, 5)
  /\ (-2, 6) ∈ adjacent_list DOWN_LEFT (-1) 5
  /\ ~ in_bordered_range (-2, 6)
  /\ ~ Forall in_bordered_range (adjacent_list DOWN_LEFT (-1) 5).
Proof.
  split; [| split; [| split]].
  - unfold in_bordered_range, columns, rows; cbn; lia.
  - cbn. apply elem_of_cons. right. apply elem_of_cons. left. reflexivity.
  - unfold in_bordered_range; cbn; lia.
  - intros H. apply Forall_cons_1 in H as [_ H].
    apply Forall_cons_1 in H as [H _].
    unfold in_bordered_range in H; cbn in H; lia.
Qed.

(** The same from the ring: the cell (-1, 5) lies on the border ring. *)
Lemma adjacent_coords_from_ring_escape :
  on_border_ring (-1, 5)
  /\ ~ Forall in_bordered_range (adjacent_list DOWN_LEFT (-1) 5).
Proof.
  split.
  - unfold on_border_ring, in_bordered_range, in_interior, columns, rows.
    cbn; lia.
  - intros H. apply Forall_cons_1 in H as [_ H].
    apply Forall_cons_1 in H as [H _].
    unfold in_bordered_range in H; cbn in H; lia.
Qed.

(** C10: [new_direction] keeps the class of the heading: a diagonal
    heading is sent to a diagonal one and a vertical heading to a vertical
    one, for every occupancy combination. *)
Theorem new_direction_preserves_class d on_left in_front on_right :
  (is_diagonal d = true ->
   is_diagonal (new_direction d on_left in_front on_right) = true)
  /\ (is_vertical d = true ->
      is_vertical (new_direction d on_left in_front on_right) = true).
Proof.
  split; intros Hd; destruct d; try discriminate Hd;
    destruct on_left, in_front, on_right; reflexivity.
Qed.

Lemma new_direction_preserves_class_witness :
  is_diagonal (new_direction UP_RIGHT false true true) = true
  /\ is_vertical (new_direction DOWN true true false) = true.
Proof.
  split.
  - apply (proj1 (new_direction_preserves_class UP_RIGHT false true true)).
    reflexivity.
  - apply (proj2 (new_direction_preserves_class DOWN true true false)).
    reflexivity.
Defined.

End DirectionFacts.

(** ** The generator and the frame step *)

Section Stubs.

Implicit Types (tape : RandomTape) (s : GameState).

(** C6: whatever the random draws, the call [make_matrix()] raises
    NotImplementedError; it returns no matrix, so none with the border. *)
Theorem make_matrix_not_implemented tape :
  make_matrix tape = Raises NotImplementedError
  /\ ~ exists m tape',
         make_matrix tape = Returns (m, tape') /\ border_invariant m.
Proof.
  split; [reflexivity |].
  intros (m & tape' & Hret & _). discriminate Hret.
Qed.

(** C7: for every game state, [update()] raises NotImplementedError; it
    returns no boolean. *)
Theorem update_not_implemented s :
  update s = Raises NotImplementedError
  /\ ~ exists quit s', update s = Returns (quit, s').
Proof.
  split; [reflexivity |].
  intros (quit & s' & Hret). discriminate Hret.
Qed.

(** At the state the dataclass defaults give for an empty matrix. *)
Example update_default_state :
  returns (update (new_GameState ∅)) = false.
Proof. reflexivity. Qed.

Lemma frame_loop_raises (frames : nat) s :
  frame_loop (S frames) s = Raises NotImplementedError.
Proof. reflexivity. Qed.

(** [main] stops at its first statement that touches the game. *)
Lemma main_raises tape (frames : nat) :
  main tape frames = Raises NotImplementedError.
Proof. reflexivity. Qed.

End Stubs.

(** ** The reflection table as a law *)

Section ReflectionLaw.

Implicit Types (d : Direction) (x y : Z) (l f r : bool).
Implicit Types (occ : Coord -> bool).

(** Bring the cells written with [delta] to the form the lookahead has. *)
Local Ltac same_cells x y :=
  change (x + -1) with (x - 1) in *; change (y + -1) with (y - 1) in *;
  try replace (x + 0) with x in * by lia.

(** X1: each axis of the step is reversed exactly when the neighbour on that
    axis is occupied, or the front cell is occupied and the neighbour on the
    other axis is free; for UP and DOWN only the front cell counts. *)
Theorem reflection_law occ d x y :
  let '(dx, dy) := delta d in
  let beside := occ (x + dx, y) in
  let ahead := occ (x, y + dy) in
  let front := occ (x + dx, y + dy) in
  delta (reflect_at occ d x y)
  = if is_diagonal d
    then (if beside || (front && negb ahead) then - dx else dx,
          if ahead || (front && negb beside) then - dy else dy)
    else (0, if front then - dy else dy).
Proof.
  unfold reflect_at. destruct d; simpl; same_cells x y;
    repeat match goal with
           | |- context [occ ?c] => destruct (occ c)
           end; reflexivity.
Qed.

(** X2: the cell one step along the reflected heading is never a lookahead
    cell that was found occupied. *)
Theorem step_avoids_hit_cells occ d x y (c : Coord) :
  c ∈ adjacent_list d x y ->
  occ c = true ->
  step_cell (reflect_at occ d x y) x y <> c.
Proof.
  intros Hc Hocc. unfold adjacent_list, reflect_at, step_cell in *.
  destruct d; simpl in *;
    repeat (apply elem_of_cons in Hc as [-> | Hc]);
    try (apply elem_of_nil in Hc; destruct Hc);
    rewrite Hocc;
    repeat match goal with
           | |- context [occ ?c'] => destruct (occ c')
           end;
    simpl; intros Heq; injection Heq; intros; lia.
Qed.

Lemma step_avoids_hit_cells_witness :
  let occ := fun c : Coord => bool_decide (c = (6, 4)) in
  (6, 4) ∈ adjacent_list UP_RIGHT 5 5
  /\ occ (6, 4) = true
  /\ step_cell (reflect_at occ UP_RIGHT 5 5) 5 5 <> (6, 4).
Proof.
  cbn zeta. split; [| split].
  - vm_compute. set_solver.
  - reflexivity.
  - apply (step_avoids_hit_cells
             (fun c : Coord => bool_decide (c = (6, 4))) UP_RIGHT 5 5 (6, 4)).
    + vm_compute. set_solver.
    + reflexivity.
Defined.

(** X3: the heading comes back unchanged only when nothing is hit: for a
    diagonal heading when all three cells are free, for UP and DOWN when the
    front cell is free. *)
Theorem new_direction_fixed_iff d l f r :
  new_direction d l f r = d
  <-> (if is_diagonal d then l = false /\ f = false /\ r = false
       else f = false).
Proof.
  destruct d, l, f, r; cbn; split; intros H;
    try reflexivity; try discriminate H; try (repeat split; reflexivity);
    destruct H as (? & ? & ?); discriminate.
Qed.

(** X4: different headings have different steps, so a heading can be read
    back from its step. *)
Theorem delta_determines_heading d1 d2 :
  delta d1 = delta d2 <-> d1 = d2.
Proof.
  split; [| intros ->; reflexivity].
  destruct d1, d2; cbn; intros H; try reflexivity; discriminate H.
Qed.

(** X5: [is_down] holds exactly for the headings whose step goes one row
    down. *)
Theorem is_down_iff_step_down d :
  is_down d = true <-> (delta d).2 = 1.
Proof. destruct d; cbn; split; intros H; try reflexivity; discriminate H. Qed.

End ReflectionLaw.

(** ** Symmetries and the order of the lookahead cells *)

Section Symmetry.

Implicit Types (d : Direction) (x y : Z) (l f r : bool).

(** X6: mirroring left to right. The lookahead of the mirrored heading is
    the mirrored lookahead read backwards, the step only changes the sign of
    its horizontal part, and the table commutes with the mirror once
    [on_left] and [on_right] are exchanged. *)
Theorem mirror_symmetry d x y l f r :
  (let '(cl, cf, cr) := get_adjacent_coords d x y in
   get_adjacent_coords (mirror d) x y
   = (mirror_cell x cr, mirror_cell x cf, mirror_cell x cl))
  /\ delta (mirror d) = (- (delta d).1, (delta d).2)
  /\ new_direction (mirror d) r f l = mirror (new_direction d l f r).
Proof.
  split; [| split].
  - destruct d; simpl; unfold mirror_cell; simpl;
      repeat apply (f_equal2 pair); lia.
  - destruct d; reflexivity.
  - destruct d, l, f, r; reflexivity.
Qed.

(** X7: a quarter turn of a diagonal heading turns the three lookahead
    cells around the ball, in the same order, and turns the answer of the
    table: the four eight-row tables are one table. *)
Theorem quarter_turn_symmetry d x y l f r :
  is_diagonal d = true ->
  (let '(cl, cf, cr) := get_adjacent_coords d x y in
   get_adjacent_coords (quarter_turn d) x y
   = (turn_cell x y cl, turn_cell x y cf, turn_cell x y cr))
  /\ step_cell (quarter_turn d) x y = turn_cell x y (step_cell d x y)
  /\ new_direction (quarter_turn d) l f r
     = quarter_turn (new_direction d l f r).
Proof.
  intros Hd. split; [| split].
  - destruct d; try discriminate Hd; simpl; unfold turn_cell; simpl;
      repeat apply (f_equal2 pair); lia.
  - destruct d; try discriminate Hd; unfold step_cell, turn_cell; simpl;
      apply (f_equal2 pair); lia.
  - destruct d; try discriminate Hd; destruct l, f, r; reflexivity.
Qed.

Lemma quarter_turn_symmetry_witness :
  is_diagonal UP_RIGHT = true
  /\ get_adjacent_coords DOWN_RIGHT 5 5 = ((6, 5), (6, 6), (5, 6))
  /\ new_direction DOWN_RIGHT false true true = UP_RIGHT.
Proof.
  split; [reflexivity |].
  destruct (quarter_turn_symmetry UP_RIGHT 5 5 false true true eq_refl)
    as (Hcells & _ & Htable).
  split; [exact Hcells | exact Htable].
Defined.

(** X8: seen from the ball, the three cells run clockwise on the screen
    (left, then front, then right) for every heading but DOWN, for which
    they run counter-clockwise. *)
Theorem adjacent_coords_orientation d x y :
  let '(cl, cf, cr) := get_adjacent_coords d x y in
  let sign := if bool_decide (d = DOWN) then -1 else 1 in
  cross (offset (x, y) cl) (offset (x, y) cf) = sign
  /\ cross (offset (x, y) cf) (offset (x, y) cr) = sign.
Proof.
  destruct d; simpl; unfold cross, offset; simpl; split; lia.
Qed.

Lemma reflect_all_diagonal d (hits : list (bool * bool * bool)) :
  is_diagonal (reflect_all d hits) = is_diagonal d.
Proof.
  unfold reflect_all. revert d.
  induction hits as [| [[l f] r] hits IH]; intros d; [reflexivity |].
  simpl. rewrite IH. destruct d, l, f, r; reflexivity.
Qed.

(** X9: from the heading a new [GameState] starts with, no run of
    reflections ever gives UP or DOWN. *)
Theorem default_heading_never_vertical (m : Matrix)
  (hits : list (bool * bool * bool)) :
  let d := reflect_all (ball_direction (new_GameState m)) hits in
  d <> UP /\ d <> DOWN.
Proof.
  pose proof (reflect_all_diagonal (ball_direction (new_GameState m)) hits)
    as Hdiag.
  simpl in *. split; intros Heq; rewrite Heq in Hdiag; discriminate Hdiag.
Qed.

End Symmetry.

(** ** What [draw_to] paints *)

Section Drawing.

Implicit Types (x y px py pos fc : Z) (m : Matrix) (s : GameState).

(** The quotient by the cell size is the index of the 10-pixel stripe. *)
Lemma div_by_cell_size (a q : Z) :
  (q * 10 <= a < q * 10 + 10) <-> q = a `div` 10.
Proof.
  split.
  - intros H. apply (Z.div_unique_pos a 10 q (a - q * 10)); lia.
  - intros ->.
    pose proof (Z.mod_pos_bound a 10 ltac:(lia)).
    pose proof (Z.div_mod a 10 ltac:(lia)). lia.
Qed.

(** Within the range of a C int nothing is reduced. *)
Lemma c_int_fits (z : Z) : fits_c_int z -> c_int z = z.
Proof.
  unfold fits_c_int, c_int. intros Hz.
  rewrite Z.mod_small by lia. lia.
Qed.

Lemma cells_fit_inside (i n j : Z) :
  cells_fit i n -> 0 <= j <= n -> fits_c_int (padding + (i + j) * cell_size).
Proof. unfold cells_fit, fits_c_int, padding, cell_size. lia. Qed.

Lemma cell_rect_fits x y :
  cells_fit x 1 -> cells_fit y 1 ->
  cell_rect x y
  = mkRect (padding + x * cell_size) (padding + y * cell_size)
           cell_size cell_size.
Proof.
  intros [Hx _] [Hy _]. unfold cell_rect, pygame_Rect.
  rewrite (c_int_fits _ Hx), (c_int_fits _ Hy). reflexivity.
Qed.

Lemma paddle_rect_fits pos :
  cells_fit pos paddle_width ->
  paddle_rect pos
  = mkRect (padding + pos * cell_size)
           (padding + (rows - paddle_height) * cell_size)
           (paddle_width * cell_size) (paddle_height * cell_size).
Proof.
  intros [Hpos _]. unfold paddle_rect, pygame_Rect.
  rewrite (c_int_fits _ Hpos). reflexivity.
Qed.

Lemma game_area_rect_pixels : game_area_rect = mkRect 20 20 400 500.
Proof. reflexivity. Qed.

(** The entries that hold a block, in the order of the keys. *)
Lemma draw_blocks_entries (keys : list Coord) m :
  exists entries : list (Coord * Block),
    draw_blocks keys m = block_square <$> entries
    /\ entries.*1 `sublist_of` keys
    /\ (forall k b, (k, b) ∈ entries <-> k ∈ keys /\ m !! k = Some (Some b)).
Proof.
  induction keys as [| [x y] keys (entries & Hdraw & Hsub & Hin)].
  - exists []. split; [reflexivity |]. split; [constructor |].
    intros k b. rewrite !elem_of_nil. tauto.
  - unfold draw_blocks in *. cbn [omap list_omap].
    destruct (m !! (x, y)) as [[b |] |] eqn:Hm.
    + exists (((x, y), b) :: entries). cbn. rewrite Hdraw.
      split; [reflexivity |]. split; [apply sublist_skip, Hsub |].
      intros k b'. rewrite !elem_of_cons, Hin. split.
      * intros [[= -> ->] | [Hk Hb]]; [split; [left |]; done | split; [right |]; done].
      * intros [[-> | Hk] Hb]; [left | right; done].
        assert (Some (Some b') = Some (Some b)) as [= ->]
          by (rewrite <- Hb, <- Hm; reflexivity).
        reflexivity.
    + exists entries. rewrite Hdraw.
      split; [reflexivity |]. split; [apply sublist_cons, Hsub |].
      intros k b'. rewrite elem_of_cons, Hin. split.
      * intros [Hk Hb]. split; [right |]; done.
      * intros [[-> | Hk] Hb]; [| done].
        exfalso. assert (Some (Some b') = m !! (x, y)) as Habs
          by (rewrite <- Hb; reflexivity).
        rewrite Hm in Habs. discriminate Habs.
    + exists entries. rewrite Hdraw.
      split; [reflexivity |]. split; [apply sublist_cons, Hsub |].
      intros k b'. rewrite elem_of_cons, Hin. split.
      * intros [Hk Hb]. split; [right |]; done.
      * intros [[-> | Hk] Hb]; [| done].
        exfalso. assert (Some (Some b') = m !! (x, y)) as Habs
          by (rewrite <- Hb; reflexivity).
        rewrite Hm in Habs. discriminate Habs.
Qed.



(** X11: for a cell whose pixel edges fit in a C int, a pixel lies in the
    cell's square exactly when the cell is the pixel's column and row,
    counted in [cell_size] steps from [padding]; so the squares of two such
    cells never share a pixel. *)
Theorem cell_rect_pixel x y px py :
  cells_fit x 1 -> cells_fit y 1 ->
  (covers (cell_rect x y) px py
   <-> x = (px - padding) `div` cell_size
       /\ y = (py - padding) `div` cell_size).
Proof.
  intros Hx Hy. rewrite (cell_rect_fits x y Hx Hy).
  unfold covers, padding, cell_size; simpl.
  rewrite <- !div_by_cell_size. lia.
Qed.

Lemma cell_rect_pixel_witness :
  cells_fit 3 1 /\ cells_fit 4 1
  /\ (covers (cell_rect 3 4) 55 62
      <-> 3 = (55 - padding) `div` cell_size
          /\ 4 = (62 - padding) `div` cell_size).
Proof.
  assert (cells_fit 3 1) as H3 by (vm_compute; repeat split; discriminate).
  assert (cells_fit 4 1) as H4 by (vm_compute; repeat split; discriminate).
  split; [exact H3 |]. split; [exact H4 |].
  exact (cell_rect_pixel 3 4 55 62 H3 H4).
Defined.

(** X12: for a cell whose pixel edges fit in a C int, the cell's square
    lies in the game area exactly when the cell is in the [columns] by
    [rows] grid, and on the screen exactly when it is at most two cells
    outside that grid. *)
Theorem cell_rect_placement x y :
  cells_fit x 1 -> cells_fit y 1 ->
  (rect_within (cell_rect x y) game_area_rect
   <-> (0 <= x < columns) /\ (0 <= y < rows))
  /\ (rect_within (cell_rect x y) screen_rect
      <-> (-2 <= x <= columns + 1) /\ (-2 <= y <= rows + 1)).
Proof.
  intros Hx Hy. rewrite (cell_rect_fits x y Hx Hy), game_area_rect_pixels.
  unfold rect_within, screen_rect, width, height,
    padding, cell_size, columns, rows; simpl.
  repeat split; lia.
Qed.

Lemma cell_rect_placement_witness :
  cells_fit (-1) 1 /\ cells_fit 49 1
  /\ ~ rect_within (cell_rect (-1) 49) game_area_rect
  /\ rect_within (cell_rect (-1) 49) screen_rect.
Proof.
  assert (cells_fit (-1) 1) as Hx by (vm_compute; repeat split; discriminate).
  assert (cells_fit 49 1) as Hy by (vm_compute; repeat split; discriminate).
  destruct (cell_rect_placement (-1) 49 Hx Hy) as [Harea Hscreen].
  split; [exact Hx |]. split; [exact Hy |]. split.
  - intros Hin. apply Harea in Hin. unfold columns, rows in Hin. lia.
  - apply Hscreen. unfold columns, rows. lia.
Defined.

(** X13: for a paddle whose pixel edges fit in a C int, the paddle is
    painted over exactly the [paddle_width] cells of the bottom row that
    start at [paddle_pos], and it stays inside the game area exactly when
    [0 <= paddle_pos <= columns - paddle_width]. *)
Theorem paddle_rect_cells pos :
  cells_fit pos paddle_width ->
  (forall px py,
     covers (paddle_rect pos) px py
     <-> exists i, (0 <= i < paddle_width)
                   /\ covers (cell_rect (pos + i) (rows - 1)) px py)
  /\ (rect_within (paddle_rect pos) game_area_rect
      <-> 0 <= pos <= columns - paddle_width).
Proof.
  intros Hfit. rewrite (paddle_rect_fits pos Hfit), game_area_rect_pixels.
  assert (cells_fit (rows - 1) 1) as Hrow
    by (vm_compute; repeat split; discriminate).
  assert (forall i, 0 <= i < paddle_width -> cells_fit (pos + i) 1) as Hcell.
  { intros i Hi. split.
    - apply (cells_fit_inside pos paddle_width i Hfit). lia.
    - replace (pos + i + 1) with (pos + (i + 1)) by lia.
      apply (cells_fit_inside pos paddle_width (i + 1) Hfit). lia. }
  split.
  - intros px py. split.
    + intros Hcov.
      assert (0 <= (px - padding) `div` cell_size - pos < paddle_width
              /\ covers (mkRect (padding + (pos + ((px - padding) `div` cell_size - pos)) * cell_size)
                                (padding + (rows - 1) * cell_size)
                                cell_size cell_size) px py) as [Hi Hc].
      { revert Hcov.
        unfold covers, padding, cell_size, rows, paddle_width, paddle_height;
          simpl. intros [Hx Hy].
        pose proof (Z.mod_pos_bound (px - 20) 10 ltac:(lia)) as Hpx.
        pose proof (Z.div_mod (px - 20) 10 ltac:(lia)) as Epx.
        lia. }
      exists ((px - padding) `div` cell_size - pos). split; [exact Hi |].
      rewrite (cell_rect_fits _ _ (Hcell _ Hi) Hrow). exact Hc.
    + intros (i & Hi & Hcov).
      rewrite (cell_rect_fits _ _ (Hcell _ Hi) Hrow) in Hcov.
      revert Hi Hcov.
      unfold covers, padding, cell_size, rows, paddle_width, paddle_height;
        simpl. lia.
  - unfold rect_within, padding, cell_size,
      columns, rows, paddle_width, paddle_height; simpl. lia.
Qed.

Lemma paddle_rect_cells_witness :
  cells_fit 15 paddle_width
  /\ rect_within (paddle_rect 15) game_area_rect.
Proof.
  assert (cells_fit 15 paddle_width) as Hfit
    by (vm_compute; repeat split; discriminate).
  split; [exact Hfit |].
  apply (proj2 (paddle_rect_cells 15 Hfit)).
  unfold columns, paddle_width. lia.
Defined.

(** X14: the numerator of [t] stays in [0, ball_slowness - 1], so
    [0 <= t < 1]. It has its largest value exactly when [frame_count] is a
    multiple of [ball_slowness], is 0 exactly on the last frame before the
    next multiple, and goes down by one from each frame to the next. *)
Theorem draw_t_numerator_cycle fc :
  (0 <= draw_t_numerator fc <= ball_slowness - 1)
  /\ (draw_t_numerator fc = ball_slowness - 1 <-> fc `mod` ball_slowness = 0)
  /\ (draw_t_numerator fc = 0
      <-> fc `mod` ball_slowness = ball_slowness - 1)
  /\ draw_t_numerator (fc + 1)
     = (if bool_decide (draw_t_numerator fc = 0)
        then ball_slowness - 1
        else draw_t_numerator fc - 1).
Proof.
  unfold draw_t_numerator, ball_slowness.
  pose proof (Z.mod_pos_bound fc 5 ltac:(lia)) as Hfc.
  pose proof (Z.mod_pos_bound (fc + 1) 5 ltac:(lia)) as Hfc1.
  pose proof (Z.div_mod fc 5 ltac:(lia)) as Efc.
  pose proof (Z.div_mod (fc + 1) 5 ltac:(lia)) as Efc1.
  repeat split; try lia.
  case_bool_decide; lia.
Qed.

End Drawing.

(** ** The frame loop *)

Section FrameLoop.

Variable upd : GameState -> result (bool * GameState).

Implicit Types (s : GameState) (frames : nat).

Lemma last_cons_default {A : Type} (a d : A) (l : list A) :
  List.last (a :: l) d = List.last l a.
Proof.
  revert a d. induction l as [| b l IH]; intros a d; [reflexivity |].
  change (List.last (a :: b :: l) d) with (List.last (b :: l) d).
  rewrite (IH b d), (IH b a). reflexivity.
Qed.


End FrameLoop.

(** A step function that counts frames and asks to stop once the counter
    has reached 2: two states are drawn, the third call ends the loop. *)
Example run_frames_counts_frames :
  let tick := fun s : GameState =>
    Returns (bool_decide (frame_count s = 2),
             mkGameState (matrix s) (frame_count s + 1) (paddle_pos s)
                         (ball_x s) (ball_y s) (ball_direction s)) in
  let '(drawn, fin) := run_frames tick 10 (new_GameState ∅) in
  frame_count <$> drawn = [1; 2]
  /\ match fin with Quit s' => frame_count s' = 3 | _ => False end.
Proof. vm_compute. split; reflexivity. Qed.

(** The loop of [main] over the [update] of [game.py]. *)
Lemma frame_loop_run_frames (frames : nat) (s : GameState) :
  frame_loop frames s
  = match run_frames update frames s with
    | (_, Quit s') => Returns (Some s')
    | (_, Raised e) => Raises e
    | (_, StillRunning _) => Returns None
    end.
Proof. destruct frames; reflexivity. Qed.
